(** * keystoneauth1.identity.v3.oidc: the OpenID Connect plugins

    A shallow embedding of [keystoneauth1/identity/v3/oidc.py]: the base class
    [_OidcBase] with its two network steps, and the two flows [OidcPassword]
    and [OidcAuthorizationCode] with their [get_unscoped_auth_ref].

    Python dicts are finite maps ([gmap]); a method is a computation over the
    instance it is called on and the session it is given, in a state and
    exception monad. *)

From stdpp Require Import gmap strings list.

Set Warnings "-register-all".
Local Open Scope string_scope.

(** ** Values *)

(** The value of an attribute that the docstrings type as a string and the
    constructors default to [None]. *)
Inductive pyval :=
| PyNone
| PyStr (s : string).

(** What [response.json()] returns: a decoded JSON document, an object being a
    Python dict with string keys. Numbers are kept as integers: the plugin
    treats every number alike. *)
Inductive json :=
| JNull
| JBool (b : bool)
| JNum (n : Z)
| JStr (s : string)
| JArr (l : list json)
| JObj (m : gmap string json).

(** A response as the plugin uses it: its status, and its body decoded as JSON
    ([None] when the body is not JSON, so that [json()] raises). *)
Record Response := {
  status_code : Z;
  json_body : option json;
}.

(** The keyword arguments of one [session.post] call; an argument the call
    does not pass is [None]. *)
Record Request := {
  method : string;
  url : string;
  requests_auth : option (string * string);
  data : option (gmap string pyval);
  headers : option (gmap string string);
  authenticated : bool;
}.

(** The exceptions a call can end with. [TransportError] and
    [TokenEndpointError] are raised by the session; [ValueError], [KeyError] and
    [TypeError] are Python's own, raised by [json()], by a dict subscript and by
    a subscript or [+] on a value of the wrong type. *)
Inductive exn :=
| TransportError
| TokenEndpointError (status : Z) (body : option json)
| ValueError
| KeyError (key : string)
| TypeError.

(** The specification's name for the failure of the subscript
    [response.json()[self.access_token_type]] on a dict without that key. *)
Definition MalformedResponseError (key : string) : exn := KeyError key.

(** ** The session *)

(** A session: the requests it has sent, oldest first, and the remote side,
    which answers a request in view of the earlier ones ([None]: no answer, a
    transport failure). *)
Record Session := {
  network : list Request → Request → option Response;
  sent : list Request;
}.

(** The state a method runs in: the instance it is called on and the session
    it is given. *)
Record World (Self : Type) := {
  this : Self;
  session : Session;
}.
Arguments this {Self} _.
Arguments session {Self} _.

(** A method body: it ends with a value or an exception, and a new state. *)
Definition M (Self A : Type) : Type := World Self → (exn + A) * World Self.

Definition ret {Self A} (a : A) : M Self A := λ w, (inr a, w).

Definition bind {Self A B} (c : M Self A) (k : A → M Self B) : M Self B :=
  λ w, match c w with
       | (inr a, w') => k a w'
       | (inl e, w') => (inl e, w')
       end.

Definition raise {Self A} (e : exn) : M Self A := λ w, (inl e, w).

Definition get_self {Self} : M Self Self := λ w, (inr (this w), w).

Definition lift {Self A} (r : exn + A) : M Self A := λ w, (r, w).

Notation "x <- c ;; k" := (bind c (λ x, k))
  (at level 100, c at next level, right associativity,
   format "'[v' x  <-  c  ;;  '/' k ']'").

Definition is_2xx (status : Z) : bool := (200 <=? status)%Z && (status <? 300)%Z.

(** Modelled from the spec: [Session.post] of keystoneauth1/session.py, which
    is not part of oidc.py. "post(url, formData, clientAuth?, headers?,
    authenticated: bool) → Response{status, jsonBody}"; "network/transport
    failures propagate as TransportError; a non-2xx status is surfaced as
    TokenEndpointError carrying the status and body". The request is recorded
    as sent whatever the answer. *)
Definition Session_post {Self} (url : string)
    (requests_auth : option (string * string))
    (data : option (gmap string pyval))
    (headers : option (gmap string string))
    (authenticated : bool) : M Self Response :=
  λ w,
    let s := session w in
    let req := {| method := "POST"; url := url; requests_auth := requests_auth;
                  data := data; headers := headers;
                  authenticated := authenticated |} in
    let w' := {| this := this w;
                 session := {| network := network s; sent := sent s ++ [req] |} |} in
    match network s (sent s) req with
    | None => (inl TransportError, w')
    | Some resp =>
        if is_2xx (status_code resp) then (inr resp, w')
        else (inl (TokenEndpointError (status_code resp) (json_body resp)), w')
    end.

(** [response.json()] *)
Definition Response_json {Self} (response : Response) : M Self json :=
  match json_body response with
  | Some j => ret j
  | None => raise ValueError
  end.

(** [obj[key]] for a string [key]: a dict lookup, [KeyError] on a missing key,
    [TypeError] on anything that is not a dict. *)
Definition getitem {Self} (obj : json) (key : string) : M Self json :=
  match obj with
  | JObj m =>
      match m !! key with
      | Some v => ret v
      | None => raise (KeyError key)
      end
  | _ => raise TypeError
  end.

(** [prefix + value] for a str [prefix]: concatenation with a str, [TypeError]
    with anything else. *)
Definition str_add {Self} (prefix : string) (value : json) : M Self string :=
  match value with
  | JStr s => ret (prefix +:+ s)
  | _ => raise TypeError
  end.

(** ** Collaborators outside oidc.py *)

(** [federation.FederationBaseAuth.federated_token_url], a property derived
    from [auth_url], [identity_provider] and [protocol], and [access.create],
    which turns the final response into token data or raises. *)
Class Collaborators := {
  AccessInfoV3 : Type;
  federated_token_url : string → string → string → string;
  access_create : Response → exn + AccessInfoV3;
}.

(** ** _OidcBase *)

Module _OidcBase.

Record t := {
  auth_url : string;
  identity_provider : string;
  protocol : string;
  client_id : string;
  client_secret : string;
  access_token_endpoint : string;
  grant_type : string;
  access_token_type : string;
}.

Definition __init__ (auth_url identity_provider protocol
    client_id client_secret access_token_endpoint
    grant_type access_token_type : string) : t :=
  {| auth_url := auth_url; identity_provider := identity_provider;
     protocol := protocol;
     client_id := client_id; client_secret := client_secret;
     access_token_endpoint := access_token_endpoint;
     grant_type := grant_type; access_token_type := access_token_type |}.

(** A class derived from [_OidcBase]: its instances hold the base attributes. *)
Class Derived (Self : Type) := super : Self → t.

Definition _get_access_token {Self} `{Derived Self}
    (client_auth : string * string) (payload : gmap string pyval)
    : M Self Response :=
  self <- get_self ;;
  op_response <- Session_post (access_token_endpoint (super self))
                   (Some client_auth) (Some payload) None false ;;
  ret op_response.

Definition _get_keystone_token {Self} `{Derived Self} `{Collaborators}
    (access_token : json) : M Self Response :=
  self <- get_self ;;
  bearer <- str_add "Bearer " access_token ;;
  let headers : gmap string string := {[ "Authorization" := bearer ]} in
  auth_response <- Session_post
                     (federated_token_url (auth_url (super self))
                        (identity_provider (super self)) (protocol (super self)))
                     None None (Some headers) false ;;
  ret auth_response.

End _OidcBase.

(** ** OidcPassword *)

Module OidcPassword.

Record t := {
  base : _OidcBase.t;
  username : pyval;
  password : pyval;
  scope : string;
}.

#[global] Instance derived : _OidcBase.Derived t := base.

(** A keyword argument that has a default is an [option]: [None] when the
    caller leaves it out. *)
Definition __init__ (auth_url identity_provider protocol
    client_id client_secret access_token_endpoint : string)
    (grant_type access_token_type : option string)
    (username password : option pyval) (scope : option string) : t :=
  {| base := _OidcBase.__init__ auth_url identity_provider protocol
               client_id client_secret access_token_endpoint
               (default "password" grant_type)
               (default "access_token" access_token_type);
     username := default PyNone username;
     password := default PyNone password;
     scope := default "profile" scope |}.

Definition get_unscoped_auth_ref `{Collaborators} : M t AccessInfoV3 :=
  self <- get_self ;;
  let client_auth := (_OidcBase.client_id (base self),
                      _OidcBase.client_secret (base self)) in
  let payload : gmap string pyval :=
    <[ "scope" := PyStr (scope self) ]>
    (<[ "password" := password self ]>
    (<[ "username" := username self ]>
    (<[ "grant_type" := PyStr (_OidcBase.grant_type (base self)) ]> ∅))) in
  response <- _OidcBase._get_access_token client_auth payload ;;
  body <- Response_json response ;;
  (* [self.access_token_type] is read after the first request *)
  self <- get_self ;;
  access_token <- getitem body (_OidcBase.access_token_type (base self)) ;;
  response <- _OidcBase._get_keystone_token access_token ;;
  lift (access_create response).

End OidcPassword.

(** ** OidcAuthorizationCode *)

Module OidcAuthorizationCode.

Record t := {
  base : _OidcBase.t;
  redirect_uri : pyval;
  code : pyval;
}.

#[global] Instance derived : _OidcBase.Derived t := base.

Definition __init__ (auth_url identity_provider protocol
    client_id client_secret access_token_endpoint : string)
    (grant_type access_token_type : option string)
    (redirect_uri code : option pyval) : t :=
  {| base := _OidcBase.__init__ auth_url identity_provider protocol
               client_id client_secret access_token_endpoint
               (default "authorization_code" grant_type)
               (default "access_token" access_token_type);
     redirect_uri := default PyNone redirect_uri;
     code := default PyNone code |}.

Definition get_unscoped_auth_ref `{Collaborators} : M t AccessInfoV3 :=
  self <- get_self ;;
  let client_auth := (_OidcBase.client_id (base self),
                      _OidcBase.client_secret (base self)) in
  let payload : gmap string pyval :=
    <[ "code" := code self ]>
    (<[ "redirect_uri" := redirect_uri self ]>
    (<[ "grant_type" := PyStr (_OidcBase.grant_type (base self)) ]> ∅)) in
  response <- _OidcBase._get_access_token client_auth payload ;;
  body <- Response_json response ;;
  (* [self.access_token_type] is read after the first request *)
  self <- get_self ;;
  access_token <- getitem body (_OidcBase.access_token_type (base self)) ;;
  response <- _OidcBase._get_keystone_token access_token ;;
  lift (access_create response).

End OidcAuthorizationCode.

(** ** Calling a plugin *)

(** A plugin object is an instance of one of the two classes. *)
Inductive plugin :=
| Password (self : OidcPassword.t)
| AuthorizationCode (self : OidcAuthorizationCode.t).

Definition config (p : plugin) : _OidcBase.t :=
  match p with
  | Password self => OidcPassword.base self
  | AuthorizationCode self => OidcAuthorizationCode.base self
  end.

(** What a call leaves behind: its result, the instance and the session. *)
Record Outcome (A : Type) := {
  result : exn + A;
  instance : plugin;
  session_after : Session;
}.
Arguments result {A} _.
Arguments instance {A} _.
Arguments session_after {A} _.

(** [plugin.get_unscoped_auth_ref(session)]: the method of the instance's
    class, run on the instance and the session. *)
Definition authenticate `{Collaborators} (p : plugin) (s : Session)
    : Outcome AccessInfoV3 :=
  match p with
  | Password self =>
      let '(r, w) := OidcPassword.get_unscoped_auth_ref
                       {| this := self; session := s |} in
      {| result := r; instance := Password (this w); session_after := session w |}
  | AuthorizationCode self =>
      let '(r, w) := OidcAuthorizationCode.get_unscoped_auth_ref
                       {| this := self; session := s |} in
      {| result := r; instance := AuthorizationCode (this w);
         session_after := session w |}
  end.

(** The requests a call issued: those the session sent during it. *)
Definition issued (before after : Session) : list Request :=
  drop (length (sent before)) (sent after).

(** The payload of the first request a call issued, and the headers of the
    second. *)
Definition phase1_payload (before after : Session) : option (gmap string pyval) :=
  head (issued before after) ≫= data.

Definition phase2_headers (before after : Session) : option (gmap string string) :=
  (issued before after !! 1%nat) ≫= headers.

(** ** The exchange as the specification describes it *)

(** "payload = {grant_type, username, password, scope}" and
    "{grant_type, redirect_uri, code}", the grant type being the configured
    one. *)
Definition payload_of (p : plugin) : gmap string pyval :=
  match p with
  | Password self =>
      list_to_map
        [ ("grant_type", PyStr (_OidcBase.grant_type (OidcPassword.base self)));
          ("username", OidcPassword.username self);
          ("password", OidcPassword.password self);
          ("scope", PyStr (OidcPassword.scope self)) ]
  | AuthorizationCode self =>
      list_to_map
        [ ("grant_type",
           PyStr (_OidcBase.grant_type (OidcAuthorizationCode.base self)));
          ("redirect_uri", OidcAuthorizationCode.redirect_uri self);
          ("code", OidcAuthorizationCode.code self) ]
  end.

(** "Outbound HTTP request 1 (token acquisition): POST <access_token_endpoint>,
    body = form-encoded grant-specific payload, client-authenticated via
    client_id/client_secret, unauthenticated w.r.t. the identity service". *)
Definition token_request (cfg : _OidcBase.t) (payload : gmap string pyval)
    : Request :=
  {| method := "POST";
     url := _OidcBase.access_token_endpoint cfg;
     requests_auth := Some (_OidcBase.client_id cfg, _OidcBase.client_secret cfg);
     data := Some payload;
     headers := None;
     authenticated := false |}.

(** "Outbound HTTP request 2 (federated redemption): request to
    <federated_token_url> with header Authorization: Bearer <access_token>". *)
Definition federated_request `{Collaborators} (cfg : _OidcBase.t)
    (access_token : string) : Request :=
  {| method := "POST";
     url := federated_token_url (_OidcBase.auth_url cfg)
              (_OidcBase.identity_provider cfg) (_OidcBase.protocol cfg);
     requests_auth := None;
     data := None;
     headers := Some {[ "Authorization" := "Bearer " +:+ access_token ]};
     authenticated := false |}.

(** A session after one more request. *)
Definition record_request (s : Session) (req : Request) : Session :=
  {| network := network s; sent := sent s ++ [req] |}.

(** What the session answers to a request: the response, or the exception
    [Session.post] raises. *)
Definition answer (s : Session) (req : Request) : exn + Response :=
  match network s (sent s) req with
  | None => inl TransportError
  | Some resp =>
      if is_2xx (status_code resp) then inr resp
      else inl (TokenEndpointError (status_code resp) (json_body resp))
  end.

(** The access token in a token-endpoint response, under the key [key]. *)
Definition extract_token (key : string) (resp : Response) : exn + string :=
  match json_body resp with
  | None => inl ValueError
  | Some (JObj m) =>
      match m !! key with
      | None => inl (MalformedResponseError key)
      | Some (JStr token) => inr token
      | Some _ => inl TypeError
      end
  | Some _ => inl TypeError
  end.

(** "A reusable two-step exchange function parameterized by a payload": the
    shared configuration and the payload decide the requests and the result.
    Phase 1 acquires the access token, phase 2 redeems it; a failure ends the
    exchange at once. *)
Definition exchange `{Collaborators} (cfg : _OidcBase.t)
    (payload : gmap string pyval) (s : Session)
    : (exn + AccessInfoV3) * Session :=
  let req1 := token_request cfg payload in
  let s1 := record_request s req1 in
  match answer s req1 with
  | inl e => (inl e, s1)
  | inr resp1 =>
      match extract_token (_OidcBase.access_token_type cfg) resp1 with
      | inl e => (inl e, s1)
      | inr token =>
          let req2 := federated_request cfg token in
          let s2 := record_request s1 req2 in
          match answer s1 req2 with
          | inl e => (inl e, s2)
          | inr resp2 => (access_create resp2, s2)
          end
      end
  end.

(** The response of the token endpoint to the request of plugin [p] on
    session [s], if it answers. *)
Definition phase1_response (p : plugin) (s : Session) : option Response :=
  network s (sent s) (token_request (config p) (payload_of p)).

(** ** Concrete collaborators and sessions, for the examples *)

(** Keystone's federated token URL, and an adapter that hands the response
    back as it is. *)
Definition keystone : Collaborators :=
  {| AccessInfoV3 := Response;
     federated_token_url := λ auth_url identity_provider protocol,
       auth_url +:+ "/OS-FEDERATION/identity_providers/" +:+ identity_provider
       +:+ "/protocols/" +:+ protocol +:+ "/auth";
     access_create := inr |}.

(** A session that has sent nothing and answers its first request with
    [first] and every later one with [second]. *)
Definition scripted (first second : Response) : Session :=
  {| network := λ earlier _,
       match earlier with [] => Some first | _ => Some second end;
     sent := [] |}.

Definition alice_instance : OidcPassword.t :=
  OidcPassword.__init__ "https://keystone:5000/v3" "op" "oidc"
    "client" "s3cret" "https://op/token"
    None None (Some (PyStr "alice")) (Some (PyStr "secret")) None.

Definition alice : plugin := Password alice_instance.

Definition callback : plugin :=
  AuthorizationCode (OidcAuthorizationCode.__init__ "https://keystone:5000/v3"
              "op" "oidc" "client" "s3cret" "https://op/token"
              None None (Some (PyStr "https://app/cb")) (Some (PyStr "C1"))).

(** An authorization-code instance configured with alice's grant type, so that
    the two share their whole base configuration. *)
Definition twin_instance : OidcAuthorizationCode.t :=
  OidcAuthorizationCode.__init__ "https://keystone:5000/v3" "op" "oidc"
    "client" "s3cret" "https://op/token"
    (Some "password") None (Some (PyStr "https://app/cb")) (Some (PyStr "C1")).

Definition ok_token : Response :=
  {| status_code := 200;
     json_body := Some (JObj {[ "access_token" := JStr "AT123" ]}) |}.

Definition ok_keystone : Response :=
  {| status_code := 200;
     json_body := Some (JObj {[ "token" := JObj {[ "id" := JStr "T1" ]} ]}) |}.

Definition unauthorized : Response :=
  {| status_code := 401;
     json_body := Some (JObj {[ "error" := JStr "invalid_client" ]}) |}.

Definition no_token : Response :=
  {| status_code := 200; json_body := Some (JObj ∅) |}.

Definition blank_token : Response :=
  {| status_code := 200;
     json_body := Some (JObj {[ "access_token" := JStr "" ]}) |}.

Definition both_tokens : Response :=
  {| status_code := 200;
     json_body := Some (JObj (<[ "id_token" := JStr "IT456" ]>
                              {[ "access_token" := JStr "AT123" ]})) |}.

(** A password plugin configured with a grant type other than its default. *)
Definition refresher : plugin :=
  Password (OidcPassword.__init__ "https://keystone:5000/v3" "op" "oidc"
              "client" "s3cret" "https://op/token"
              (Some "refresh_token") None
              (Some (PyStr "alice")) (Some (PyStr "secret")) None).

(** Plugins of both classes that read the token under "id_token". *)
Definition alice_id : plugin :=
  Password (OidcPassword.__init__ "https://keystone:5000/v3" "op" "oidc"
              "client" "s3cret" "https://op/token"
              None (Some "id_token")
              (Some (PyStr "alice")) (Some (PyStr "secret")) None).

Definition callback_id : plugin :=
  AuthorizationCode (OidcAuthorizationCode.__init__ "https://keystone:5000/v3"
              "op" "oidc" "client" "s3cret" "https://op/token"
              None (Some "id_token")
              (Some (PyStr "https://app/cb")) (Some (PyStr "C1"))).

(** ** More sessions and responses *)

(** A session whose remote side never answers. *)
Definition unreachable : Session :=
  {| network := λ _ _, None; sent := [] |}.

(** The remote side answers a request without regard to the earlier ones. *)
Definition history_independent (s : Session) : Prop :=
  ∀ earlier earlier' req, network s earlier req = network s earlier' req.

(** A session that has sent nothing and answers by the URL of the request:
    [token] at the token endpoint, [other] anywhere else. *)
Definition by_url (endpoint : string) (token other : Response) : Session :=
  {| network := λ _ req,
       if String.eqb (url req) endpoint then Some token else Some other;
     sent := [] |}.

Definition numeric_token : Response :=
  {| status_code := 200;
     json_body := Some (JObj {[ "access_token" := JNum 42 ]}) |}.

Definition array_body : Response :=
  {| status_code := 200; json_body := Some (JArr [JStr "AT123"]) |}.

Definition not_json : Response :=
  {| status_code := 200; json_body := None |}.

(** * Properties *)

(** ** The calls, step by step *)

Section Steps.
Context `{Collaborators}.

(** One [post]: the request joins the sent ones, and the session's answer is
    the result. *)
Lemma Session_post_run {Self} u ra d h au (w : World Self) :
  Session_post u ra d h au w =
  let req := {| method := "POST"; url := u; requests_auth := ra; data := d;
                headers := h; authenticated := au |} in
  (answer (session w) req,
   {| this := this w; session := record_request (session w) req |}).
Proof.
  unfold Session_post, answer, record_request; simpl.
  destruct (network _ _ _) as [resp|]; [|done].
  by destruct (is_2xx _).
Qed.

(** The dict a flow builds is the payload the specification lists. *)
Lemma password_payload (self : OidcPassword.t) :
  <[ "scope" := PyStr (OidcPassword.scope self) ]>
  (<[ "password" := OidcPassword.password self ]>
  (<[ "username" := OidcPassword.username self ]>
  (<[ "grant_type" := PyStr (_OidcBase.grant_type (OidcPassword.base self)) ]>
     (∅ : gmap string pyval))))
  = payload_of (Password self).
Proof.
  apply map_eq; intros k; simpl.
  repeat (rewrite lookup_insert; case_decide; subst; simpl); done.
Qed.

Lemma authorization_code_payload (self : OidcAuthorizationCode.t) :
  <[ "code" := OidcAuthorizationCode.code self ]>
  (<[ "redirect_uri" := OidcAuthorizationCode.redirect_uri self ]>
  (<[ "grant_type" :=
        PyStr (_OidcBase.grant_type (OidcAuthorizationCode.base self)) ]>
     (∅ : gmap string pyval)))
  = payload_of (AuthorizationCode self).
Proof.
  apply map_eq; intros k; simpl.
  repeat (rewrite lookup_insert; case_decide; subst; simpl); done.
Qed.

(** The base class's first step sends the token request. *)
Lemma _get_access_token_run {Self} `{_OidcBase.Derived Self}
    (payload : gmap string pyval) (self : Self) (s : Session) :
  let cfg := _OidcBase.super self in
  _OidcBase._get_access_token
    (_OidcBase.client_id cfg, _OidcBase.client_secret cfg) payload
    {| this := self; session := s |} =
  (answer s (token_request cfg payload),
   {| this := self; session := record_request s (token_request cfg payload) |}).
Proof.
  unfold _OidcBase._get_access_token, bind, get_self, ret; simpl.
  rewrite Session_post_run; simpl.
  by destruct (answer _ _).
Qed.

(** Its second step sends the federated request when the token is a str, and
    nothing otherwise. *)
Lemma _get_keystone_token_run {Self} `{_OidcBase.Derived Self}
    (token : string) (self : Self) (s : Session) :
  let cfg := _OidcBase.super self in
  _OidcBase._get_keystone_token (JStr token) {| this := self; session := s |} =
  (answer s (federated_request cfg token),
   {| this := self; session := record_request s (federated_request cfg token) |}).
Proof.
  unfold _OidcBase._get_keystone_token, bind, get_self, str_add, ret; simpl.
  rewrite Session_post_run; simpl.
  by destruct (answer _ _).
Qed.

Lemma _get_keystone_token_not_str {Self} `{_OidcBase.Derived Self}
    (value : json) (w : World Self) :
  (∀ token, value ≠ JStr token) →
  _OidcBase._get_keystone_token value w = (inl TypeError, w).
Proof.
  intros Hv. unfold _OidcBase._get_keystone_token, bind, get_self, str_add.
  destruct value; try done. by destruct (Hv s).
Qed.

(** What the two flows share, from the token request on, is the exchange. *)
Lemma flow_run {Self} `{_OidcBase.Derived Self}
    (payload : gmap string pyval) (self : Self) (s : Session) :
  let cfg := _OidcBase.super self in
  (response <- _OidcBase._get_access_token
                 (_OidcBase.client_id cfg, _OidcBase.client_secret cfg) payload ;;
   body <- Response_json response ;;
   self <- get_self ;;
   access_token <- getitem body (_OidcBase.access_token_type (_OidcBase.super self)) ;;
   response <- _OidcBase._get_keystone_token access_token ;;
   lift (access_create response)) {| this := self; session := s |} =
  ((exchange cfg payload s).1,
   {| this := self; session := (exchange cfg payload s).2 |}).
Proof.
  intros cfg; subst cfg. unfold bind at 1. rewrite _get_access_token_run.
  unfold exchange, extract_token, MalformedResponseError.
  destruct (answer s _) as [e|resp1]; [done|].
  unfold bind at 1, Response_json.
  destruct (json_body resp1) as [body|]; [|done].
  unfold ret at 1, bind at 1, get_self at 1, bind at 1, getitem; simpl.
  destruct body as [| | | |l|m]; try done.
  destruct (m !! _) as [value|]; [|done].
  unfold ret at 1, bind at 1.
  destruct value as [| | |token| |];
    try (by rewrite _get_keystone_token_not_str).
  rewrite _get_keystone_token_run.
  by destruct (answer _ _).
Qed.

(** Both flows are the exchange, on their configuration and payload. *)
Lemma authenticate_exchange (p : plugin) (s : Session) :
  authenticate p s =
  {| result := (exchange (config p) (payload_of p) s).1;
     instance := p;
     session_after := (exchange (config p) (payload_of p) s).2 |}.
Proof.
  destruct p as [self|self]; unfold authenticate.
  - unfold OidcPassword.get_unscoped_auth_ref, bind at 1, get_self at 1.
    cbn beta iota zeta. rewrite password_payload.
    match goal with
    | |- context [bind ?c ?k ?w] =>
        by rewrite (flow_run (payload_of (Password self)) self s : bind c k w = _)
    end.
  - unfold OidcAuthorizationCode.get_unscoped_auth_ref, bind at 1, get_self at 1.
    cbn beta iota zeta. rewrite authorization_code_payload.
    match goal with
    | |- context [bind ?c ?k ?w] =>
        by rewrite (flow_run (payload_of (AuthorizationCode self)) self s
                    : bind c k w = _)
    end.
Qed.

End Steps.

(** ** The claims *)

Section Claims.
Context `{Collaborators}.

Lemma issued_one (s : Session) (req : Request) :
  issued s (record_request s req) = [req].
Proof. unfold issued, record_request; simpl. by rewrite drop_app_length. Qed.

Lemma issued_two (s : Session) (req1 req2 : Request) :
  issued s (record_request (record_request s req1) req2) = [req1; req2].
Proof.
  unfold issued, record_request; simpl.
  by rewrite <- app_assoc, drop_app_length.
Qed.

(** A 2xx answer of the token endpoint is what [post] returns. *)
Lemma answer_phase1 (p : plugin) (s : Session) (resp1 : Response) :
  phase1_response p s = Some resp1 →
  answer s (token_request (config p) (payload_of p)) =
  if is_2xx (status_code resp1) then inr resp1
  else inl (TokenEndpointError (status_code resp1) (json_body resp1)).
Proof. unfold phase1_response, answer. by intros ->. Qed.

(** With a str under the configured key, both requests go out. *)
Lemma exchange_redeems (p : plugin) (s : Session) (resp1 : Response)
    (m : gmap string json) (token : string) :
  phase1_response p s = Some resp1 →
  is_2xx (status_code resp1) = true →
  json_body resp1 = Some (JObj m) →
  m !! _OidcBase.access_token_type (config p) = Some (JStr token) →
  issued s (session_after (authenticate p s)) =
  [token_request (config p) (payload_of p); federated_request (config p) token].
Proof.
  intros Hresp Hok Hbody Hkey.
  rewrite authenticate_exchange; simpl. unfold exchange, extract_token.
  rewrite (answer_phase1 _ _ _ Hresp), Hok, Hbody, Hkey.
  destruct (answer _ (federated_request _ _)); apply issued_two.
Qed.

(** C1, as amended: when the token endpoint answers the first request with a
    2xx response whose JSON body is an object holding a string under the key
    [access_token_type], a call of [get_unscoped_auth_ref], in either flow,
    issues exactly two requests, in order: the POST to the token endpoint, then
    the request to the federated token URL, whose Authorization header is
    "Bearer " followed by that string. *)
Theorem authenticate_issues_two_requests (p : plugin) (s : Session)
    (resp1 : Response) (m : gmap string json) (token : string) :
  phase1_response p s = Some resp1 →
  is_2xx (status_code resp1) = true →
  json_body resp1 = Some (JObj m) →
  m !! _OidcBase.access_token_type (config p) = Some (JStr token) →
  ∃ req1 req2,
    issued s (session_after (authenticate p s)) = [req1; req2] ∧
    method req1 = "POST" ∧
    url req1 = _OidcBase.access_token_endpoint (config p) ∧
    url req2 = federated_token_url (_OidcBase.auth_url (config p))
                 (_OidcBase.identity_provider (config p))
                 (_OidcBase.protocol (config p)) ∧
    headers req2 = Some {[ "Authorization" := "Bearer " +:+ token ]}.
Proof.
  intros Hresp Hok Hbody Hkey.
  exists (token_request (config p) (payload_of p)),
         (federated_request (config p) token).
  split; [by eapply exchange_redeems|done].
Qed.

(** C2: when the token endpoint answers the first request with a status
    outside 2xx, the call fails with the TokenEndpointError that carries this
    status, and the token request is the only request issued: the federated
    request is never sent. *)
Theorem phase1_failure_stops_the_call (p : plugin) (s : Session)
    (resp1 : Response) :
  phase1_response p s = Some resp1 →
  is_2xx (status_code resp1) = false →
  result (authenticate p s) =
    inl (TokenEndpointError (status_code resp1) (json_body resp1)) ∧
  issued s (session_after (authenticate p s)) =
    [token_request (config p) (payload_of p)].
Proof.
  intros Hresp Hko.
  rewrite authenticate_exchange; simpl. unfold exchange.
  rewrite (answer_phase1 _ _ _ Hresp), Hko; simpl.
  split; [done|apply issued_one].
Qed.

(** C3: when the token endpoint answers with a 2xx response whose JSON body is
    an object without the key [access_token_type], the call fails with
    MalformedResponseError (the KeyError of the subscript), and the token
    request is the only request issued: the failure comes before any federated
    request. *)
Theorem missing_key_is_malformed_response (p : plugin) (s : Session)
    (resp1 : Response) (m : gmap string json) :
  phase1_response p s = Some resp1 →
  is_2xx (status_code resp1) = true →
  json_body resp1 = Some (JObj m) →
  m !! _OidcBase.access_token_type (config p) = None →
  result (authenticate p s) =
    inl (MalformedResponseError (_OidcBase.access_token_type (config p))) ∧
  issued s (session_after (authenticate p s)) =
    [token_request (config p) (payload_of p)].
Proof.
  intros Hresp Hok Hbody Hkey.
  rewrite authenticate_exchange; simpl. unfold exchange, extract_token.
  rewrite (answer_phase1 _ _ _ Hresp), Hok, Hbody, Hkey; simpl.
  split; [done|apply issued_one].
Qed.

(** The first request of every call is the token request. *)
Lemma issued_starts_with_token_request (p : plugin) (s : Session) :
  ∃ rest, issued s (session_after (authenticate p s)) =
          token_request (config p) (payload_of p) :: rest.
Proof.
  rewrite authenticate_exchange; simpl. unfold exchange.
  destruct (answer s _) as [e|resp1]; simpl.
  { exists []. apply issued_one. }
  destruct (extract_token _ _) as [e|token]; simpl.
  { exists []. apply issued_one. }
  exists [federated_request (config p) token].
  destruct (answer _ _); apply issued_two.
Qed.

(** C7: the first request of every call is a POST to [access_token_endpoint],
    not authenticated towards the identity service, with the pair
    [(client_id, client_secret)] as its credentials and the payload of the
    flow as its form data. *)
Theorem phase1_request_shape (p : plugin) (s : Session) :
  ∃ req rest,
    issued s (session_after (authenticate p s)) = req :: rest ∧
    method req = "POST" ∧
    url req = _OidcBase.access_token_endpoint (config p) ∧
    authenticated req = false ∧
    requests_auth req =
      Some (_OidcBase.client_id (config p), _OidcBase.client_secret (config p)) ∧
    data req = Some (payload_of p) ∧
    headers req = None.
Proof.
  destruct (issued_starts_with_token_request p s) as [rest Hrest].
  by exists (token_request (config p) (payload_of p)), rest.
Qed.

(** C8: a call of [get_unscoped_auth_ref], in either flow, leaves the
    instance as it was, every attribute included, whether it returns or
    raises. *)
Theorem authenticate_keeps_the_instance (p : plugin) (s : Session) :
  instance (authenticate p s) = p.
Proof. by rewrite authenticate_exchange. Qed.

(** The payload of the first request is the payload of the flow. *)
Lemma phase1_payload_of (p : plugin) (s : Session) :
  phase1_payload s (session_after (authenticate p s)) = Some (payload_of p).
Proof.
  destruct (issued_starts_with_token_request p s) as [rest Hrest].
  unfold phase1_payload. by rewrite Hrest.
Qed.

Lemma password_payload_keys (self : OidcPassword.t) :
  dom (payload_of (Password self)) =
  ({[ "grant_type"; "username"; "password"; "scope" ]} : gset string).
Proof. simpl. rewrite !dom_insert_L, dom_empty_L. set_solver. Qed.

Lemma authorization_code_payload_keys (self : OidcAuthorizationCode.t) :
  dom (payload_of (AuthorizationCode self)) =
  ({[ "grant_type"; "redirect_uri"; "code" ]} : gset string).
Proof. simpl. rewrite !dom_insert_L, dom_empty_L. set_solver. Qed.

(** C4: in every call the payload of the password flow has exactly the keys
    grant_type, username, password and scope, and the payload of the
    authorization-code flow exactly the keys grant_type, redirect_uri and
    code; the two key sets meet in grant_type alone, so no field of one
    variant is in the payload of the other. *)
Theorem payload_keys_of_the_flows (pw : OidcPassword.t)
    (ac : OidcAuthorizationCode.t) (s s' : Session) :
  ∃ payload_pw payload_ac : gmap string pyval,
    phase1_payload s (session_after (authenticate (Password pw) s))
      = Some payload_pw ∧
    phase1_payload s' (session_after (authenticate (AuthorizationCode ac) s'))
      = Some payload_ac ∧
    dom payload_pw = {[ "grant_type"; "username"; "password"; "scope" ]} ∧
    dom payload_ac = {[ "grant_type"; "redirect_uri"; "code" ]} ∧
    dom payload_pw ∩ dom payload_ac = {[ "grant_type" ]}.
Proof.
  exists (payload_of (Password pw)), (payload_of (AuthorizationCode ac)).
  rewrite !phase1_payload_of, password_payload_keys,
    authorization_code_payload_keys.
  split_and!; [done..|]. apply set_eq; intros k.
  rewrite elem_of_intersection, !elem_of_union, !elem_of_singleton.
  split; [|intros ->; auto].
  intros [[[[->| ->]| ->]| ->] [[?|?]|?]]; done.
Qed.

(** C5, as amended: in every call the payload maps grant_type to the grant
    type the instance is configured with; that is "password" for a password
    flow and "authorization_code" for an authorization-code flow when the
    constructor is given no grant type, and the given one otherwise. *)
Theorem payload_grant_type_is_configured :
  (∀ (p : plugin) (s : Session),
     ∃ payload : gmap string pyval,
       phase1_payload s (session_after (authenticate p s)) = Some payload ∧
       payload !! "grant_type" = Some (PyStr (_OidcBase.grant_type (config p)))) ∧
  (∀ a i pr c cs e gt att u pw sc,
     _OidcBase.grant_type
       (config (Password (OidcPassword.__init__ a i pr c cs e gt att u pw sc)))
     = default "password" gt) ∧
  (∀ a i pr c cs e gt att ru co,
     _OidcBase.grant_type
       (config (AuthorizationCode
                  (OidcAuthorizationCode.__init__ a i pr c cs e gt att ru co)))
     = default "authorization_code" gt).
Proof.
  split; [|done].
  intros p s. exists (payload_of p). split; [apply phase1_payload_of|].
  by destruct p.
Qed.

(** After a 2xx answer of the token endpoint, the call goes on as the token
    found under the configured key decides. *)
Lemma authenticate_after_phase1 (p : plugin) (s : Session) (resp1 : Response) :
  phase1_response p s = Some resp1 →
  is_2xx (status_code resp1) = true →
  authenticate p s =
  let req1 := token_request (config p) (payload_of p) in
  match extract_token (_OidcBase.access_token_type (config p)) resp1 with
  | inl e =>
      {| result := inl e; instance := p; session_after := record_request s req1 |}
  | inr token =>
      let req2 := federated_request (config p) token in
      {| result := match answer (record_request s req1) req2 with
                   | inl e => inl e
                   | inr resp2 => access_create resp2
                   end;
         instance := p;
         session_after := record_request (record_request s req1) req2 |}
  end.
Proof.
  intros Hresp Hok. rewrite authenticate_exchange. unfold exchange.
  rewrite (answer_phase1 _ _ _ Hresp), Hok; simpl.
  destruct (extract_token _ _) as [e|token]; [done|].
  by destruct (answer _ _).
Qed.

Lemma phase2_headers_two (s : Session) (req1 req2 : Request) :
  phase2_headers s (record_request (record_request s req1) req2) = headers req2.
Proof. unfold phase2_headers. by rewrite issued_two. Qed.

(** C6: the token is read from the token-endpoint response under the
    configured [access_token_type] and nothing else. Two plugins, of any class
    and grant type, that agree on [access_token_type] and get the same
    response read the same entry of it: both send its string as the bearer
    token, or both fail in the same way (KeyError for a missing key, TypeError
    for an entry that is not a string). *)
Theorem token_key_is_access_token_type (p q : plugin) (sp sq : Session)
    (resp1 : Response) (m : gmap string json) :
  _OidcBase.access_token_type (config p) = _OidcBase.access_token_type (config q) →
  phase1_response p sp = Some resp1 →
  phase1_response q sq = Some resp1 →
  is_2xx (status_code resp1) = true →
  json_body resp1 = Some (JObj m) →
  match m !! _OidcBase.access_token_type (config p) with
  | Some (JStr token) =>
      phase2_headers sp (session_after (authenticate p sp))
        = Some {[ "Authorization" := "Bearer " +:+ token ]} ∧
      phase2_headers sq (session_after (authenticate q sq))
        = Some {[ "Authorization" := "Bearer " +:+ token ]}
  | Some _ =>
      result (authenticate p sp) = inl TypeError ∧
      result (authenticate q sq) = inl TypeError
  | None =>
      result (authenticate p sp)
        = inl (KeyError (_OidcBase.access_token_type (config p))) ∧
      result (authenticate q sq)
        = inl (KeyError (_OidcBase.access_token_type (config p)))
  end.
Proof.
  intros Hkey Hp Hq Hok Hbody.
  rewrite (authenticate_after_phase1 p sp resp1 Hp Hok),
    (authenticate_after_phase1 q sq resp1 Hq Hok).
  unfold extract_token. rewrite Hbody, <- Hkey.
  destruct (m !! _) as [[| | |token| |]|]; simpl; try done.
  by rewrite !phase2_headers_two.
Qed.

(** C9: the Authorization header of the federated request is "Bearer "
    followed by the string read from the token-endpoint response, as it is;
    the string is not checked, and for the empty string the request is still
    issued, with the header value "Bearer ". *)
Theorem bearer_header_is_verbatim (p : plugin) (s : Session)
    (resp1 : Response) (m : gmap string json) (token : string) :
  phase1_response p s = Some resp1 →
  is_2xx (status_code resp1) = true →
  json_body resp1 = Some (JObj m) →
  m !! _OidcBase.access_token_type (config p) = Some (JStr token) →
  length (issued s (session_after (authenticate p s))) = 2%nat ∧
  phase2_headers s (session_after (authenticate p s))
    = Some {[ "Authorization" := "Bearer " +:+ token ]} ∧
  (token = "" →
   phase2_headers s (session_after (authenticate p s))
     = Some {[ "Authorization" := "Bearer " ]}).
Proof.
  intros Hresp Hok Hbody Hkey.
  unfold phase2_headers.
  rewrite (exchange_redeems p s resp1 m token Hresp Hok Hbody Hkey); simpl.
  repeat split. by intros ->.
Qed.

(** C10: the two flows are one exchange, which the shared configuration and
    the payload decide: a password instance and an authorization-code instance
    with the same base configuration, called on the same session, both run
    [exchange] on that configuration, each with the payload it builds. So
    whenever the two payloads are equal, the calls issue the same requests and
    end with the same result, failures included. *)
Theorem flows_are_one_exchange (pw : OidcPassword.t)
    (ac : OidcAuthorizationCode.t) (s : Session) :
  OidcPassword.base pw = OidcAuthorizationCode.base ac →
  let call_pw := authenticate (Password pw) s in
  let call_ac := authenticate (AuthorizationCode ac) s in
  (result call_pw, session_after call_pw)
    = exchange (OidcPassword.base pw) (payload_of (Password pw)) s ∧
  (result call_ac, session_after call_ac)
    = exchange (OidcPassword.base pw) (payload_of (AuthorizationCode ac)) s ∧
  (phase1_payload s (session_after call_pw)
     = phase1_payload s (session_after call_ac) →
   result call_pw = result call_ac ∧
   issued s (session_after call_pw) = issued s (session_after call_ac)).
Proof.
  intros Hbase call_pw call_ac. subst call_pw call_ac.
  rewrite !phase1_payload_of, !authenticate_exchange.
  cbn [result session_after config]. rewrite <- Hbase.
  split_and!.
  - by destruct (exchange _ _ _).
  - by destruct (exchange _ _ _).
  - by intros [= ->].
Qed.

End Claims.

(** ** The claims on concrete calls *)

#[local] Existing Instance keystone.

(** The payloads of the two classes always differ: only one has a username. *)
Lemma payloads_differ (pw : OidcPassword.t) (ac : OidcAuthorizationCode.t) :
  payload_of (Password pw) ≠ payload_of (AuthorizationCode ac).
Proof.
  intros Heq. apply (f_equal (λ payload, payload !! "username")) in Heq.
  simpl in Heq. done.
Qed.

(** Scenario A: alice, a token endpoint answering {"access_token": "AT123"}
    and keystone answering {"token": {"id": "T1"}}. *)
Example scenario_A :
  result (authenticate alice (scripted ok_token ok_keystone)) = inr ok_keystone ∧
  phase2_headers (scripted ok_token ok_keystone)
    (session_after (authenticate alice (scripted ok_token ok_keystone)))
  = Some {[ "Authorization" := "Bearer AT123" ]}.
Proof. split; reflexivity. Qed.

(** Scenario C: the payload of the authorization-code flow. *)
Example scenario_C :
  phase1_payload (scripted ok_token ok_keystone)
    (session_after (authenticate callback (scripted ok_token ok_keystone)))
  = Some (list_to_map [ ("grant_type", PyStr "authorization_code");
                        ("redirect_uri", PyStr "https://app/cb");
                        ("code", PyStr "C1") ]).
Proof. reflexivity. Qed.

(** C1 as stated fails: on a token endpoint that answers 200 with the empty
    object, alice's call raises KeyError and has issued one request, not
    two. *)
Lemma one_request_when_the_key_is_missing :
  result (authenticate alice (scripted no_token ok_keystone))
    = inl (KeyError "access_token") ∧
  issued (scripted no_token ok_keystone)
    (session_after (authenticate alice (scripted no_token ok_keystone)))
    = [token_request (config alice) (payload_of alice)] ∧
  length (issued (scripted no_token ok_keystone)
            (session_after (authenticate alice (scripted no_token ok_keystone))))
    ≠ 2%nat.
Proof. split_and!; [reflexivity..|]. vm_compute. discriminate. Qed.

Lemma authenticate_issues_two_requests_witness :
  phase1_response alice (scripted ok_token ok_keystone) = Some ok_token ∧
  ∃ req1 req2,
    issued (scripted ok_token ok_keystone)
      (session_after (authenticate alice (scripted ok_token ok_keystone)))
      = [req1; req2] ∧
    method req1 = "POST" ∧
    url req1 = "https://op/token" ∧
    url req2 =
      "https://keystone:5000/v3/OS-FEDERATION/identity_providers/op/protocols/oidc/auth" ∧
    headers req2 = Some {[ "Authorization" := "Bearer AT123" ]}.
Proof.
  split; [reflexivity|].
  exact (authenticate_issues_two_requests alice (scripted ok_token ok_keystone)
           ok_token {[ "access_token" := JStr "AT123" ]} "AT123"
           eq_refl eq_refl eq_refl eq_refl).
Defined.

(** Scenario B: the token endpoint answers 401. *)
Lemma phase1_failure_stops_the_call_witness :
  phase1_response alice (scripted unauthorized ok_keystone) = Some unauthorized ∧
  is_2xx 401 = false ∧
  result (authenticate alice (scripted unauthorized ok_keystone))
    = inl (TokenEndpointError 401
             (Some (JObj {[ "error" := JStr "invalid_client" ]}))) ∧
  issued (scripted unauthorized ok_keystone)
    (session_after (authenticate alice (scripted unauthorized ok_keystone)))
    = [token_request (config alice) (payload_of alice)].
Proof.
  split_and!; [reflexivity..| |];
    apply (phase1_failure_stops_the_call alice
             (scripted unauthorized ok_keystone) unauthorized);
    reflexivity.
Defined.

Lemma missing_key_is_malformed_response_witness :
  phase1_response callback (scripted no_token ok_keystone) = Some no_token ∧
  (∅ : gmap string json) !! "access_token" = None ∧
  result (authenticate callback (scripted no_token ok_keystone))
    = inl (MalformedResponseError "access_token") ∧
  issued (scripted no_token ok_keystone)
    (session_after (authenticate callback (scripted no_token ok_keystone)))
    = [token_request (config callback) (payload_of callback)].
Proof.
  split_and!; [reflexivity..| |];
    apply (missing_key_is_malformed_response callback
             (scripted no_token ok_keystone) no_token ∅);
    reflexivity.
Defined.

(** C5 as stated fails: a password plugin constructed with
    grant_type="refresh_token" sends that grant type, not "password". *)
Lemma password_flow_with_another_grant_type :
  ∃ payload : gmap string pyval,
    phase1_payload (scripted ok_token ok_keystone)
      (session_after (authenticate refresher (scripted ok_token ok_keystone)))
      = Some payload ∧
    payload !! "grant_type" = Some (PyStr "refresh_token") ∧
    payload !! "grant_type" ≠ Some (PyStr "password").
Proof.
  eexists. split; [reflexivity|]. split; [reflexivity|]. vm_compute. discriminate.
Qed.

(** Configured with "id_token", both flows send the id token and ignore the
    access token that the same response holds. *)
Lemma token_key_is_access_token_type_witness :
  _OidcBase.access_token_type (config alice_id) = "id_token" ∧
  _OidcBase.access_token_type (config callback_id) = "id_token" ∧
  phase2_headers (scripted both_tokens ok_keystone)
    (session_after (authenticate alice_id (scripted both_tokens ok_keystone)))
    = Some {[ "Authorization" := "Bearer IT456" ]} ∧
  phase2_headers (scripted both_tokens ok_keystone)
    (session_after (authenticate callback_id (scripted both_tokens ok_keystone)))
    = Some {[ "Authorization" := "Bearer IT456" ]}.
Proof.
  split_and!; [reflexivity..| |];
    apply (token_key_is_access_token_type alice_id callback_id
             (scripted both_tokens ok_keystone)
             (scripted both_tokens ok_keystone) both_tokens
             (<[ "id_token" := JStr "IT456" ]>
                {[ "access_token" := JStr "AT123" ]})
             eq_refl eq_refl eq_refl eq_refl eq_refl).
Defined.

Lemma bearer_header_is_verbatim_witness :
  phase1_response alice (scripted blank_token ok_keystone) = Some blank_token ∧
  length (issued (scripted blank_token ok_keystone)
            (session_after (authenticate alice (scripted blank_token ok_keystone))))
    = 2%nat ∧
  phase2_headers (scripted blank_token ok_keystone)
    (session_after (authenticate alice (scripted blank_token ok_keystone)))
    = Some {[ "Authorization" := "Bearer " ]}.
Proof.
  split; [reflexivity|].
  destruct (bearer_header_is_verbatim alice (scripted blank_token ok_keystone)
              blank_token {[ "access_token" := JStr "" ]} ""
              eq_refl eq_refl eq_refl eq_refl) as (Hlen & _ & Hblank).
  split; [exact Hlen|exact (Hblank eq_refl)].
Defined.

Lemma flows_are_one_exchange_witness :
  OidcPassword.base alice_instance = OidcAuthorizationCode.base twin_instance ∧
  (result (authenticate (Password alice_instance) (scripted ok_token ok_keystone)),
   session_after (authenticate (Password alice_instance)
                    (scripted ok_token ok_keystone)))
  = exchange (OidcPassword.base alice_instance)
      (payload_of (Password alice_instance)) (scripted ok_token ok_keystone) ∧
  (result (authenticate (AuthorizationCode twin_instance)
             (scripted ok_token ok_keystone)),
   session_after (authenticate (AuthorizationCode twin_instance)
                    (scripted ok_token ok_keystone)))
  = exchange (OidcPassword.base alice_instance)
      (payload_of (AuthorizationCode twin_instance))
      (scripted ok_token ok_keystone).
Proof.
  split; [reflexivity|].
  destruct (flows_are_one_exchange alice_instance twin_instance
              (scripted ok_token ok_keystone) eq_refl) as (Hpw & Hac & _).
  split; [exact Hpw|exact Hac].
Defined.

(** * Further properties of the calls *)

Section Calls.
Context `{Collaborators}.

(** When [post] returns a response, the remote side gave it, with a 2xx
    status. *)
Lemma answer_inr (s : Session) (req : Request) (resp : Response) :
  answer s req = inr resp ↔
  network s (sent s) req = Some resp ∧ is_2xx (status_code resp) = true.
Proof.
  unfold answer. destruct (network _ _ _) as [resp'|].
  - destruct (is_2xx (status_code resp')) eqn:Hok.
    + split; [by intros [= ->]|by intros [[= ->] _]].
    + split; [done|]. intros [[= ->] Hok']. congruence.
  - split; [done|by intros [? _]].
Qed.

(** A token comes out of a response exactly when its body is an object with
    a string under the key. *)
Lemma extract_token_inr (key : string) (resp : Response) (token : string) :
  extract_token key resp = inr token ↔
  ∃ m, json_body resp = Some (JObj m) ∧ m !! key = Some (JStr token).
Proof.
  unfold extract_token. split.
  - destruct (json_body resp) as [[| | | | |m]|]; try done.
    destruct (m !! key) as [[| | |token'| |]|] eqn:Hkey; try done.
    intros [= ->]. by exists m.
  - intros (m & -> & ->). done.
Qed.

(** X1: a password plugin sends what its constructor was given. For every
    choice of constructor arguments, the first request of a call is the POST
    to the [access_token_endpoint] argument, with [(client_id, client_secret)]
    as credentials and a payload made of the grant type (default "password"),
    the username and password (default None, kept as None in the payload) and
    the scope (default "profile"). *)
Theorem password_constructor_reaches_token_request
    (a i pr c cs e : string) (gt att : option string)
    (u pw : option pyval) (sc : option string) (s : Session) :
  head (issued s (session_after
          (authenticate
             (Password (OidcPassword.__init__ a i pr c cs e gt att u pw sc)) s)))
  = Some {| method := "POST";
            url := e;
            requests_auth := Some (c, cs);
            data := Some (list_to_map
                      [ ("grant_type", PyStr (default "password" gt));
                        ("username", default PyNone u);
                        ("password", default PyNone pw);
                        ("scope", PyStr (default "profile" sc)) ]);
            headers := None;
            authenticated := false |}.
Proof.
  destruct (issued_starts_with_token_request
              (Password (OidcPassword.__init__ a i pr c cs e gt att u pw sc)) s)
    as [rest ->].
  reflexivity.
Qed.

(** X2: an authorization-code plugin sends what its constructor was given.
    For every choice of constructor arguments, the first request of a call is
    the POST to the [access_token_endpoint] argument, with
    [(client_id, client_secret)] as credentials and a payload made of the
    grant type (default "authorization_code"), the redirect URI and the code
    (default None, kept as None in the payload). *)
Theorem authorization_code_constructor_reaches_token_request
    (a i pr c cs e : string) (gt att : option string)
    (ru co : option pyval) (s : Session) :
  head (issued s (session_after
          (authenticate
             (AuthorizationCode
                (OidcAuthorizationCode.__init__ a i pr c cs e gt att ru co)) s)))
  = Some {| method := "POST";
            url := e;
            requests_auth := Some (c, cs);
            data := Some (list_to_map
                      [ ("grant_type", PyStr (default "authorization_code" gt));
                        ("redirect_uri", default PyNone ru);
                        ("code", default PyNone co) ]);
            headers := None;
            authenticated := false |}.
Proof.
  destruct (issued_starts_with_token_request
              (AuthorizationCode
                 (OidcAuthorizationCode.__init__ a i pr c cs e gt att ru co)) s)
    as [rest ->].
  reflexivity.
Qed.

(** X3: whatever exception the token request ends with, a transport failure
    included, the call ends with that same exception and has issued the token
    request alone: nothing catches it, nothing is retried. *)
Theorem token_request_exception_propagates (p : plugin) (s : Session) (e : exn) :
  answer s (token_request (config p) (payload_of p)) = inl e →
  result (authenticate p s) = inl e ∧
  issued s (session_after (authenticate p s))
    = [token_request (config p) (payload_of p)].
Proof.
  intros Hraise. rewrite authenticate_exchange; simpl. unfold exchange.
  rewrite Hraise; simpl. split; [done|apply issued_one].
Qed.

(** X4: when the token endpoint answers 2xx with an object that holds, under
    the configured key, a value that is not a string (a number, null, a nested
    object ...), the call raises TypeError and the federated request is not
    sent: the header is built before the request. *)
Theorem non_string_token_raises_type_error (p : plugin) (s : Session)
    (resp1 : Response) (m : gmap string json) (value : json) :
  phase1_response p s = Some resp1 →
  is_2xx (status_code resp1) = true →
  json_body resp1 = Some (JObj m) →
  m !! _OidcBase.access_token_type (config p) = Some value →
  (∀ token, value ≠ JStr token) →
  result (authenticate p s) = inl TypeError ∧
  issued s (session_after (authenticate p s))
    = [token_request (config p) (payload_of p)].
Proof.
  intros Hresp Hok Hbody Hkey Hvalue.
  rewrite (authenticate_after_phase1 p s resp1 Hresp Hok).
  unfold extract_token. rewrite Hbody, Hkey.
  destruct value as [| | |token| |]; simpl;
    try (split; [done|apply issued_one]).
  by destruct (Hvalue token).
Qed.

(** X5: when the token endpoint answers 2xx with JSON that is not an object
    (an array, a string, a number, null), the subscript raises TypeError and
    the call ends there, after the token request alone. *)
Theorem non_object_body_raises_type_error (p : plugin) (s : Session)
    (resp1 : Response) (body : json) :
  phase1_response p s = Some resp1 →
  is_2xx (status_code resp1) = true →
  json_body resp1 = Some body →
  (∀ m, body ≠ JObj m) →
  result (authenticate p s) = inl TypeError ∧
  issued s (session_after (authenticate p s))
    = [token_request (config p) (payload_of p)].
Proof.
  intros Hresp Hok Hbody Hobj.
  rewrite (authenticate_after_phase1 p s resp1 Hresp Hok).
  unfold extract_token. rewrite Hbody.
  destruct body as [| | | | |m]; simpl;
    try (split; [done|apply issued_one]).
  by destruct (Hobj m).
Qed.

(** X6: when the token endpoint answers 2xx with a body that is not JSON,
    [json()] raises ValueError and the call ends there, after the token
    request alone. *)
Theorem undecodable_body_raises_value_error (p : plugin) (s : Session)
    (resp1 : Response) :
  phase1_response p s = Some resp1 →
  is_2xx (status_code resp1) = true →
  json_body resp1 = None →
  result (authenticate p s) = inl ValueError ∧
  issued s (session_after (authenticate p s))
    = [token_request (config p) (payload_of p)].
Proof.
  intros Hresp Hok Hbody.
  rewrite (authenticate_after_phase1 p s resp1 Hresp Hok).
  unfold extract_token. rewrite Hbody; simpl.
  split; [done|apply issued_one].
Qed.

(** With a token in hand, the call is decided by the federated request. *)
Lemma authenticate_with_token (p : plugin) (s : Session) (resp1 : Response)
    (m : gmap string json) (token : string) :
  phase1_response p s = Some resp1 →
  is_2xx (status_code resp1) = true →
  json_body resp1 = Some (JObj m) →
  m !! _OidcBase.access_token_type (config p) = Some (JStr token) →
  result (authenticate p s) =
    match answer (record_request s (token_request (config p) (payload_of p)))
            (federated_request (config p) token) with
    | inl e => inl e
    | inr resp2 => access_create resp2
    end.
Proof.
  intros Hresp Hok Hbody Hkey.
  rewrite (authenticate_after_phase1 p s resp1 Hresp Hok).
  unfold extract_token. by rewrite Hbody, Hkey.
Qed.

(** X7: once the token is read, whatever exception the federated request
    ends with is the exception of the call; both requests have been issued and
    [access.create] has no part in the result. *)
Theorem federated_request_exception_propagates (p : plugin) (s : Session)
    (resp1 : Response) (m : gmap string json) (token : string) (e : exn) :
  phase1_response p s = Some resp1 →
  is_2xx (status_code resp1) = true →
  json_body resp1 = Some (JObj m) →
  m !! _OidcBase.access_token_type (config p) = Some (JStr token) →
  answer (record_request s (token_request (config p) (payload_of p)))
    (federated_request (config p) token) = inl e →
  result (authenticate p s) = inl e ∧
  issued s (session_after (authenticate p s))
    = [token_request (config p) (payload_of p);
       federated_request (config p) token].
Proof.
  intros Hresp Hok Hbody Hkey Hraise.
  rewrite (authenticate_with_token p s resp1 m token Hresp Hok Hbody Hkey),
    (exchange_redeems p s resp1 m token Hresp Hok Hbody Hkey), Hraise.
  done.
Qed.

(** X8: when both requests are answered, the call returns what
    [access.create] makes of the response to the federated request, or raises
    what it raises; the token-endpoint response contributes the token and
    nothing else. *)
Theorem result_is_access_create_of_federated_response (p : plugin)
    (s : Session) (resp1 resp2 : Response) (m : gmap string json)
    (token : string) :
  phase1_response p s = Some resp1 →
  is_2xx (status_code resp1) = true →
  json_body resp1 = Some (JObj m) →
  m !! _OidcBase.access_token_type (config p) = Some (JStr token) →
  network s (sent s ++ [token_request (config p) (payload_of p)])
    (federated_request (config p) token) = Some resp2 →
  is_2xx (status_code resp2) = true →
  result (authenticate p s) = access_create resp2.
Proof.
  intros Hresp Hok Hbody Hkey Hresp2 Hok2.
  rewrite (authenticate_with_token p s resp1 m token Hresp Hok Hbody Hkey).
  unfold answer, record_request; simpl. by rewrite Hresp2, Hok2.
Qed.

(** X9: a call issues one request or two, never none and never a third
    (nothing is retried); it issues two exactly when the token endpoint
    answers 2xx with an object holding a string under the configured key. *)
Theorem one_or_two_requests (p : plugin) (s : Session) :
  (length (issued s (session_after (authenticate p s))) = 1%nat ∨
   length (issued s (session_after (authenticate p s))) = 2%nat) ∧
  (length (issued s (session_after (authenticate p s))) = 2%nat ↔
   ∃ resp1 m token,
     phase1_response p s = Some resp1 ∧
     is_2xx (status_code resp1) = true ∧
     json_body resp1 = Some (JObj m) ∧
     m !! _OidcBase.access_token_type (config p) = Some (JStr token)).
Proof.
  rewrite authenticate_exchange; cbn [session_after]. unfold exchange.
  destruct (answer s _) as [e|resp1] eqn:Hanswer; cbn [snd].
  { rewrite issued_one. split; [by left|]. split; [done|].
    intros (resp1 & m & token & Hresp & Hok & _).
    assert (answer s (token_request (config p) (payload_of p)) = inr resp1)
      as Hanswer' by by apply answer_inr.
    congruence. }
  apply answer_inr in Hanswer as [Hresp Hok].
  destruct (extract_token _ resp1) as [e|token] eqn:Htoken; cbn [snd].
  { rewrite issued_one. split; [by left|]. split; [done|].
    intros (resp1' & m & token & Hresp' & _ & Hbody & Hkey).
    unfold phase1_response in Hresp'. rewrite Hresp in Hresp'.
    injection Hresp' as <-.
    assert (extract_token (_OidcBase.access_token_type (config p)) resp1
            = inr token) as Htoken' by (apply extract_token_inr; eauto).
    congruence. }
  apply extract_token_inr in Htoken as (m & Hbody & Hkey).
  assert (length (issued s
            (record_request
               (record_request s (token_request (config p) (payload_of p)))
               (federated_request (config p) token))) = 2%nat) as Hlen
    by by rewrite issued_two.
  destruct (answer _ (federated_request _ _)); cbn [snd];
    (split; [by right|]; split; [|done]; intros _; by exists resp1, m, token).
Qed.

(** X10: the second request, whenever one is issued, is a POST to the
    federated token URL that carries no credentials and no form data: its only
    content is the single header Authorization, "Bearer " followed by the
    token. The client secret and the user's password go to the token endpoint
    alone. *)
Theorem federated_request_carries_no_credentials (p : plugin) (s : Session)
    (req : Request) :
  issued s (session_after (authenticate p s)) !! 1%nat = Some req →
  method req = "POST" ∧
  url req = federated_token_url (_OidcBase.auth_url (config p))
              (_OidcBase.identity_provider (config p))
              (_OidcBase.protocol (config p)) ∧
  requests_auth req = None ∧
  data req = None ∧
  authenticated req = false ∧
  ∃ token, headers req = Some {[ "Authorization" := "Bearer " +:+ token ]}.
Proof.
  rewrite authenticate_exchange; cbn [session_after]. unfold exchange.
  destruct (answer s _) as [e|resp1]; cbn [snd].
  { by rewrite issued_one. }
  destruct (extract_token _ resp1) as [e|token]; cbn [snd].
  { by rewrite issued_one. }
  intros Hreq.
  assert (req = federated_request (config p) token) as ->.
  { destruct (answer _ (federated_request _ _)); cbn [snd] in Hreq;
      rewrite issued_two in Hreq; by injection Hreq. }
  split_and!; try done. by exists token.
Qed.

(** The exchange leaves the remote side as it is. *)
Lemma network_exchange (cfg : _OidcBase.t) (payload : gmap string pyval)
    (s : Session) :
  network (exchange cfg payload s).2 = network s.
Proof.
  unfold exchange.
  destruct (answer s _) as [e|resp1]; [done|].
  destruct (extract_token _ resp1) as [e|token]; [done|].
  by destruct (answer _ _).
Qed.

(** A remote side without memory answers alike in every session it is in. *)
Lemma answer_history_independent (s s' : Session) (req : Request) :
  history_independent s → network s' = network s →
  answer s' req = answer s req.
Proof.
  intros Hind Hnet. unfold answer. by rewrite Hnet, (Hind (sent s') (sent s)).
Qed.

Lemma exchange_history_independent (cfg : _OidcBase.t)
    (payload : gmap string pyval) (s s' : Session) :
  history_independent s → network s' = network s →
  (exchange cfg payload s').1 = (exchange cfg payload s).1 ∧
  issued s' (exchange cfg payload s').2 = issued s (exchange cfg payload s).2.
Proof.
  intros Hind Hnet. unfold exchange.
  rewrite (answer_history_independent s s' _ Hind Hnet).
  destruct (answer s _) as [e|resp1]; cbn [fst snd].
  { by rewrite !issued_one. }
  destruct (extract_token _ resp1) as [e|token]; cbn [fst snd].
  { by rewrite !issued_one. }
  rewrite (answer_history_independent
             (record_request s (token_request cfg payload))
             (record_request s' (token_request cfg payload))).
  - destruct (answer _ (federated_request _ _)); cbn [fst snd];
      by rewrite !issued_two.
  - intros ???. apply Hind.
  - done.
Qed.

(** X11: nothing is kept from one call to the next. Against a remote side
    that answers without regard to earlier requests, calling the same instance
    again on the same session issues the same requests again, the token
    request first, and ends with the same result: no token is cached and the
    instance is as it was. *)
Theorem repeated_call_repeats_the_exchange (p : plugin) (s : Session) :
  history_independent s →
  result (authenticate (instance (authenticate p s))
            (session_after (authenticate p s)))
    = result (authenticate p s) ∧
  issued (session_after (authenticate p s))
    (session_after (authenticate (instance (authenticate p s))
                      (session_after (authenticate p s))))
    = issued s (session_after (authenticate p s)).
Proof.
  intros Hind. rewrite (authenticate_exchange p s).
  cbn [instance session_after result].
  rewrite authenticate_exchange. cbn [session_after result].
  apply exchange_history_independent; [done|apply network_exchange].
Qed.

End Calls.

(** ** The further properties on concrete calls *)

Lemma token_request_exception_propagates_witness :
  result (authenticate alice unreachable) = inl TransportError ∧
  issued unreachable (session_after (authenticate alice unreachable))
    = [token_request (config alice) (payload_of alice)].
Proof.
  exact (token_request_exception_propagates alice unreachable TransportError
           eq_refl).
Defined.

Lemma non_string_token_raises_type_error_witness :
  phase1_response alice (scripted numeric_token ok_keystone) = Some numeric_token ∧
  result (authenticate alice (scripted numeric_token ok_keystone)) = inl TypeError ∧
  issued (scripted numeric_token ok_keystone)
    (session_after (authenticate alice (scripted numeric_token ok_keystone)))
    = [token_request (config alice) (payload_of alice)].
Proof.
  split; [reflexivity|].
  apply (non_string_token_raises_type_error alice
           (scripted numeric_token ok_keystone) numeric_token
           {[ "access_token" := JNum 42 ]} (JNum 42));
    [reflexivity..|discriminate].
Defined.

Lemma non_object_body_raises_type_error_witness :
  phase1_response callback (scripted array_body ok_keystone) = Some array_body ∧
  result (authenticate callback (scripted array_body ok_keystone)) = inl TypeError ∧
  issued (scripted array_body ok_keystone)
    (session_after (authenticate callback (scripted array_body ok_keystone)))
    = [token_request (config callback) (payload_of callback)].
Proof.
  split; [reflexivity|].
  apply (non_object_body_raises_type_error callback
           (scripted array_body ok_keystone) array_body (JArr [JStr "AT123"]));
    [reflexivity..|discriminate].
Defined.

Lemma undecodable_body_raises_value_error_witness :
  phase1_response alice (scripted not_json ok_keystone) = Some not_json ∧
  result (authenticate alice (scripted not_json ok_keystone)) = inl ValueError ∧
  issued (scripted not_json ok_keystone)
    (session_after (authenticate alice (scripted not_json ok_keystone)))
    = [token_request (config alice) (payload_of alice)].
Proof.
  split; [reflexivity|].
  apply (undecodable_body_raises_value_error alice
           (scripted not_json ok_keystone) not_json);
    reflexivity.
Defined.

Lemma federated_request_exception_propagates_witness :
  phase1_response alice (scripted ok_token unauthorized) = Some ok_token ∧
  result (authenticate alice (scripted ok_token unauthorized))
    = inl (TokenEndpointError 401
             (Some (JObj {[ "error" := JStr "invalid_client" ]}))) ∧
  issued (scripted ok_token unauthorized)
    (session_after (authenticate alice (scripted ok_token unauthorized)))
    = [token_request (config alice) (payload_of alice);
       federated_request (config alice) "AT123"].
Proof.
  split; [reflexivity|].
  exact (federated_request_exception_propagates alice
           (scripted ok_token unauthorized) ok_token
           {[ "access_token" := JStr "AT123" ]} "AT123"
           (TokenEndpointError 401
              (Some (JObj {[ "error" := JStr "invalid_client" ]})))
           eq_refl eq_refl eq_refl eq_refl eq_refl).
Defined.

Lemma result_is_access_create_of_federated_response_witness :
  phase1_response alice (scripted ok_token ok_keystone) = Some ok_token ∧
  result (authenticate alice (scripted ok_token ok_keystone))
    = access_create ok_keystone.
Proof.
  split; [reflexivity|].
  exact (result_is_access_create_of_federated_response alice
           (scripted ok_token ok_keystone) ok_token ok_keystone
           {[ "access_token" := JStr "AT123" ]} "AT123"
           eq_refl eq_refl eq_refl eq_refl eq_refl eq_refl).
Defined.

Lemma federated_request_carries_no_credentials_witness :
  issued (scripted ok_token ok_keystone)
    (session_after (authenticate alice (scripted ok_token ok_keystone))) !! 1%nat
    = Some (federated_request (config alice) "AT123") ∧
  requests_auth (federated_request (config alice) "AT123") = None ∧
  data (federated_request (config alice) "AT123") = None.
Proof.
  split; [reflexivity|].
  destruct (federated_request_carries_no_credentials alice
              (scripted ok_token ok_keystone)
              (federated_request (config alice) "AT123") eq_refl)
    as (_ & _ & Hauth & Hdata & _).
  split; [exact Hauth|exact Hdata].
Defined.

Lemma repeated_call_repeats_the_exchange_witness :
  history_independent (by_url "https://op/token" ok_token ok_keystone) ∧
  result (authenticate
            (instance (authenticate alice
                         (by_url "https://op/token" ok_token ok_keystone)))
            (session_after (authenticate alice
                              (by_url "https://op/token" ok_token ok_keystone))))
    = inr ok_keystone ∧
  issued (session_after (authenticate alice
                           (by_url "https://op/token" ok_token ok_keystone)))
    (session_after
       (authenticate
          (instance (authenticate alice
                       (by_url "https://op/token" ok_token ok_keystone)))
          (session_after (authenticate alice
                            (by_url "https://op/token" ok_token ok_keystone)))))
    = [token_request (config alice) (payload_of alice);
       federated_request (config alice) "AT123"].
Proof.
  assert (history_independent (by_url "https://op/token" ok_token ok_keystone))
    as Hind by (intros earlier earlier' req; reflexivity).
  split; [exact Hind|].
  exact (repeated_call_repeats_the_exchange alice
           (by_url "https://op/token" ok_token ok_keystone) Hind).
Defined.
